(** * Totem documentation build configuration (docs/conf.py)

    A shallow embedding of the Sphinx configuration module of the Totem
    project.  The module is a straight-line Python script: a run of
    top-level assignments, four imports, and one subscript assignment that
    stores a freshly constructed [PhpLexer] in the dictionary
    [sphinx.highlighting.lexers].

    The script is embedded as a computation in a state-and-exception monad
    over the module namespace (its globals) and the part of the Python
    process it touches: the import system, the shared lexer dictionary and
    the object allocator. *)

From stdpp Require Import gmap strings list fin_maps.

(** ** Python values *)

(** The values the script builds or refers to.  [VAttr m n] is a reference
    to the attribute [n] of the external module [m] (an object that lives
    in the process, not in this script); [VInstance id m n kw] is the
    object with identity [id] made by calling the class [m.n] with the
    keyword arguments [kw]. *)
#[warnings="-register-all"]
Inductive value : Type :=
  | VStr (s : string)
  | VBool (b : bool)
  | VList (xs : list value)
  | VTuple (xs : list value)
  | VModule (name : string)
  | VAttr (modname name : string)
  | VInstance (id : nat) (modname name : string) (kwargs : list (string * value)).

Inductive exn : Type :=
  | ImportError
  | NameError
  | TypeError.

(** Text.  Python source is UTF-8 ([# -*- coding: utf-8 -*-]); a string is
    kept as its UTF-8 bytes.  The [u] prefix of the source does not change
    the text denoted. *)
Definition dquote : string := String (Ascii.ascii_of_nat 34) EmptyString.
Definition e_acute : string :=
  String (Ascii.ascii_of_nat 195) (String (Ascii.ascii_of_nat 169) EmptyString).
Definition author : string :=
  String.append "Baptiste "
    (String.append dquote
       (String.append "Talus"
          (String.append dquote (String.append " Clavi" e_acute)))).

(** ** The process *)

(** [importable] maps each module the import system can find to the names
    it exports; [lexers] is the dictionary object
    [sphinx.highlighting.lexers], shared by everything in the process;
    [next_id] is the identity the next allocated object receives. *)
Record process : Type := Process {
  importable : gmap string (gset string);
  lexers : gmap string value;
  next_id : nat
}.

Record state : Type := State {
  globals : gmap string value;
  proc : process
}.

(** ** The execution monad *)

Definition exec (A : Type) : Type := state → state * (exn + A).

#[global] Instance exec_ret : MRet exec := λ A a s, (s, inr a).
#[global] Instance exec_bind : MBind exec := λ A B f m s,
  match m s with
  | (s', inr a) => f a s'
  | (s', inl e) => (s', inl e)
  end.

Definition raise {A : Type} (e : exn) : exec A := λ s, (s, inl e).

(** ** Statements and expressions *)

(** [x = v] *)
Definition assign (x : string) (v : value) : exec unit := λ s,
  (State (<[x := v]> (globals s)) (proc s), inr tt).

Definition has_module (p : process) (m : string) : bool :=
  bool_decide (is_Some (importable p !! m)).

Definition has_attr (p : process) (m n : string) : bool :=
  match importable p !! m with
  | Some names => bool_decide (n ∈ names)
  | None => false
  end.

(** [import m] *)
Definition import_module (m : string) : exec unit := λ s,
  if has_module (proc s) m then assign m (VModule m) s
  else raise ImportError s.

(** [from m import n] *)
Definition from_import (m n : string) : exec unit := λ s,
  if has_attr (proc s) m n then assign n (VAttr m n) s
  else raise ImportError s.

(** Reading a global name. *)
Definition name (x : string) : exec value := λ s,
  match globals s !! x with
  | Some v => (s, inr v)
  | None => raise NameError s
  end.

(** Calling [f] with keyword arguments.  The one callable of the process
    the script uses is the class [pygments.lexers.web.PhpLexer]; calling it
    allocates an instance that records the options it was constructed
    with. *)
Definition call (f : value) (kwargs : list (string * value)) : exec value := λ s,
  match f with
  | VAttr m n =>
      if String.eqb m "pygments.lexers.web" && String.eqb n "PhpLexer" then
        let p := proc s in
        (State (globals s) (Process (importable p) (lexers p) (S (next_id p))),
         inr (VInstance (next_id p) m n kwargs))
      else raise TypeError s
  | _ => raise TypeError s
  end.

(** [d[k] = v].  The one subscriptable object of the process the script
    uses is the dictionary [sphinx.highlighting.lexers]; the store goes to
    the shared object, whatever name it was reached by. *)
Definition setitem (d : value) (k : string) (v : value) : exec unit := λ s,
  match d with
  | VAttr m n =>
      if String.eqb m "sphinx.highlighting" && String.eqb n "lexers" then
        let p := proc s in
        (State (globals s) (Process (importable p) (<[k := v]> (lexers p)) (next_id p)),
         inr tt)
      else raise TypeError s
  | _ => raise TypeError s
  end.

(** ** The module body *)

Definition extensions : value := VList [].
Definition templates_path : value := VList [VStr ".templates"].
Definition source_suffix : value := VStr ".rst".
Definition master_doc : value := VStr "index".
Definition project : value := VStr "Totem".
Definition copyright : value := VStr (String.append "2013, " author).
Definition version : value := VStr "1.4".
Definition release : value := VStr "1.4.0".
Definition language : value := VStr "en".
Definition highlight_language : value := VStr "php".
Definition exclude_patterns : value := VList [VStr ".build"].
Definition latex_documents : value :=
  VList [
    VTuple [VStr "index"; VStr "Totem.tex"; VStr "Totem Documentation";
            VStr author; VStr "manual"]
  ].
Definition texinfo_documents : value :=
  VList [
    VTuple [VStr "index"; VStr "Totem"; VStr "Totem Documentation";
            VStr author; VStr "Totem"; VStr "Changeset Calculator.";
            VStr "Miscellaneous"]
  ].

Definition conf_py : exec unit :=
  import_module "sys" ;;
  import_module "os" ;;
  assign "extensions" extensions ;;
  assign "templates_path" templates_path ;;
  assign "source_suffix" source_suffix ;;
  assign "master_doc" master_doc ;;
  assign "project" project ;;
  assign "copyright" copyright ;;
  assign "version" version ;;
  assign "release" release ;;
  assign "language" language ;;
  assign "highlight_language" highlight_language ;;
  assign "exclude_patterns" exclude_patterns ;;
  assign "latex_documents" latex_documents ;;
  assign "texinfo_documents" texinfo_documents ;;
  from_import "sphinx.highlighting" "lexers" ;;
  from_import "pygments.lexers.web" "PhpLexer" ;;
  cls ← name "PhpLexer" ;
  obj ← call cls [("startinline", VBool true)] ;
  d ← name "lexers" ;
  setitem d "php" obj.

(** Loading the module: the body runs in the namespace [g] the loader
    supplies; on success the loader gets the namespace back, on an
    exception it gets the exception.  The key [__builtins__], which the
    interpreter itself puts into a namespace that lacks it before running
    any code, is no statement of the script and is not modelled: what is
    said below about the names of a namespace is said of the other keys,
    or of a namespace that already holds that key. *)
Definition load (g : gmap string value) (p : process)
  : process * (exn + gmap string value) :=
  match conf_py (State g p) with
  | (s, inr _) => (proc s, inr (globals s))
  | (s, inl e) => (proc s, inl e)
  end.

(** ** Equivalence of objects up to identity *)

(** Two constructions of the same class with the same options give
    distinct objects; [erase_id] forgets the identities, so that values
    built the same way become equal. *)
Fixpoint erase_id (v : value) : value :=
  match v with
  | VList xs => VList (map erase_id xs)
  | VTuple xs => VTuple (map erase_id xs)
  | VInstance _ m n kw =>
      VInstance 0 m n (map (λ '(k, a), (k, erase_id a)) kw)
  | _ => v
  end.

Definition value_equiv (v w : value) : Prop := erase_id v = erase_id w.

Definition registry_equiv (r1 r2 : gmap string value) : Prop :=
  erase_id <$> r1 = erase_id <$> r2.

(** ** Sample processes *)

(** A process in which Sphinx and Pygments are installed and the lexer
    dictionary already holds an entry of Sphinx's own. *)
Definition sphinx_process : process :=
  Process {[ "sys" := ∅; "os" := ∅;
             "sphinx.highlighting" := {[ "lexers" ]};
             "pygments.lexers.web" := {[ "PhpLexer" ]} ]}
          {[ "python" := VInstance 0 "pygments.lexers.agile" "PythonLexer" [] ]}
          1.

(** A process in which Sphinx's highlighting module cannot be imported. *)
Definition no_sphinx_process : process :=
  Process {[ "sys" := ∅; "os" := ∅;
             "pygments.lexers.web" := {[ "PhpLexer" ]} ]}
          {[ "python" := VInstance 0 "pygments.lexers.agile" "PythonLexer" [] ]}
          1.

(** The same process without Pygments' web lexers. *)
Definition no_pygments_process : process :=
  Process {[ "sys" := ∅; "os" := ∅;
             "sphinx.highlighting" := {[ "lexers" ]} ]}
          {[ "python" := VInstance 0 "pygments.lexers.agile" "PythonLexer" [] ]}
          1.

(** A namespace as a loader hands it over, with the interpreter's
    [__builtins__] already in place. *)
Definition loader_namespace : gmap string value :=
  {[ "__builtins__" := VModule "builtins"; "tags" := VList [] ]}.

(** ** Running the module body *)

Definition imports_available (p : process) : bool :=
  has_module p "sys" && has_module p "os"
  && has_attr p "sphinx.highlighting" "lexers"
  && has_attr p "pygments.lexers.web" "PhpLexer".

(** The object the final statement constructs when the allocator is at [id]. *)
Definition php_lexer (id : nat) : value :=
  VInstance id "pygments.lexers.web" "PhpLexer" [("startinline", VBool true)].

(** The process after a successful run: one object allocated, one store
    into the shared dictionary. *)
Definition registered (p : process) : process :=
  Process (importable p) (<["php" := php_lexer (next_id p)]> (lexers p))
          (S (next_id p)).

(** The namespace after a successful run, over the namespace [g] the
    loader supplied. *)
Definition module_globals (g : gmap string value) : gmap string value :=
  <["PhpLexer" := VAttr "pygments.lexers.web" "PhpLexer"]>
  (<["lexers" := VAttr "sphinx.highlighting" "lexers"]>
  (<["texinfo_documents" := texinfo_documents]>
  (<["latex_documents" := latex_documents]>
  (<["exclude_patterns" := exclude_patterns]>
  (<["highlight_language" := highlight_language]>
  (<["language" := language]>
  (<["release" := release]>
  (<["version" := version]>
  (<["copyright" := copyright]>
  (<["project" := project]>
  (<["master_doc" := master_doc]>
  (<["source_suffix" := source_suffix]>
  (<["templates_path" := templates_path]>
  (<["extensions" := extensions]>
  (<["os" := VModule "os"]>
  (<["sys" := VModule "sys"]> g)))))))))))))))).

(** [is_descriptor n doc v]: the value [v] is an [n]-tuple whose first
    element is the document id [doc]. *)
Definition is_descriptor (n : nat) (doc v : value) : Prop :=
  ∃ xs, v = VTuple xs ∧ length xs = n ∧ head xs = Some doc.

(** The names the script binds, in the order of its statements: the two
    modules of [import sys, os], the targets of the assignments, and the
    two names of the [from ... import ...] statements. *)
Definition bound_names : list string :=
  [ "sys"; "os"; "extensions"; "templates_path"; "source_suffix";
    "master_doc"; "project"; "copyright"; "version"; "release"; "language";
    "highlight_language"; "exclude_patterns"; "latex_documents";
    "texinfo_documents"; "lexers"; "PhpLexer" ].

(** [n] loads one after the other in one process, each in the namespace
    [g]; the result is that of the last load, or the first exception. *)
Fixpoint load_n (n : nat) (g : gmap string value) (p : process)
  : process * (exn + gmap string value) :=
  match n with
  | 0 => (p, inr g)
  | S n' =>
      match load_n n' g p with
      | (p', inr _) => load g p'
      | (p', inl e) => (p', inl e)
      end
  end.

(** Map lookups in the final namespace: skip the later bindings, hit the
    binding of the key. *)
Ltac lookup_globals :=
  unfold module_globals;
  repeat (rewrite lookup_insert_ne by done);
  apply lookup_insert_eq.

(** One equation per kind of statement, each followed by the rest of the
    script [k]. *)
Section Steps.
Context {A : Type}.
Implicit Types (s : state) (k : unit → exec A).

Lemma run_assign x v k s :
  (assign x v ≫= k) s = k tt (State (<[x := v]> (globals s)) (proc s)).
Proof. reflexivity. Qed.

Lemma run_import_module m k s :
  (import_module m ≫= k) s =
    if has_module (proc s) m
    then k tt (State (<[m := VModule m]> (globals s)) (proc s))
    else (s, inl ImportError).
Proof.
  unfold mbind, exec_bind, import_module.
  destruct (has_module (proc s) m); reflexivity.
Qed.

Lemma run_from_import m n k s :
  (from_import m n ≫= k) s =
    if has_attr (proc s) m n
    then k tt (State (<[n := VAttr m n]> (globals s)) (proc s))
    else (s, inl ImportError).
Proof.
  unfold mbind, exec_bind, from_import.
  destruct (has_attr (proc s) m n); reflexivity.
Qed.

Lemma run_name x v (k : value → exec A) s :
  globals s !! x = Some v → (name x ≫= k) s = k v s.
Proof. intros Hx. unfold mbind, exec_bind, name. rewrite Hx. reflexivity. Qed.

Lemma run_call_PhpLexer kw (k : value → exec A) s :
  (call (VAttr "pygments.lexers.web" "PhpLexer") kw ≫= k) s =
    k (VInstance (next_id (proc s)) "pygments.lexers.web" "PhpLexer" kw)
      (State (globals s)
         (Process (importable (proc s)) (lexers (proc s))
                  (S (next_id (proc s))))).
Proof. reflexivity. Qed.
End Steps.

Lemma run_setitem_lexers (key : string) (v : value) (s : state) :
  setitem (VAttr "sphinx.highlighting" "lexers") key v s =
    (State (globals s)
       (Process (importable (proc s)) (<[key := v]> (lexers (proc s)))
                (next_id (proc s))),
     inr tt).
Proof. reflexivity. Qed.

(** The whole script: it either runs to its end, or stops at the first
    import that fails. *)
Lemma load_run (g : gmap string value) (p : process) :
  load g p =
    if imports_available p
    then (registered p, inr (module_globals g))
    else (p, inl ImportError).
Proof.
  unfold load, conf_py, imports_available.
  rewrite run_import_module; cbn [proc globals].
  destruct (has_module p "sys"); [|reflexivity].
  rewrite run_import_module; cbn [proc globals].
  destruct (has_module p "os"); [|reflexivity].
  repeat (rewrite run_assign; cbn [proc globals]).
  rewrite run_from_import; cbn [proc globals].
  destruct (has_attr p "sphinx.highlighting" "lexers"); [|reflexivity].
  rewrite run_from_import; cbn [proc globals].
  destruct (has_attr p "pygments.lexers.web" "PhpLexer"); [|reflexivity].
  rewrite (run_name "PhpLexer" (VAttr "pygments.lexers.web" "PhpLexer"))
    by apply lookup_insert_eq.
  rewrite run_call_PhpLexer; cbn [proc globals].
  rewrite (run_name "lexers" (VAttr "sphinx.highlighting" "lexers"))
    by (cbn [globals]; rewrite lookup_insert_ne by done; apply lookup_insert_eq).
  rewrite run_setitem_lexers; cbn [proc globals importable lexers next_id].
  reflexivity.
Qed.

Lemma load_ok (g : gmap string value) (p : process) :
  imports_available p = true →
  load g p = (registered p, inr (module_globals g)).
Proof. intros H. rewrite load_run, H. reflexivity. Qed.

Lemma load_fails (g : gmap string value) (p : process) :
  imports_available p = false → load g p = (p, inl ImportError).
Proof. intros H. rewrite load_run, H. reflexivity. Qed.

(** A load that succeeds had every import available. *)
Lemma load_ok_inv (g : gmap string value) (p p' : process) ns :
  load g p = (p', inr ns) →
  imports_available p = true ∧ p' = registered p ∧ ns = module_globals g.
Proof.
  rewrite load_run. destruct (imports_available p); [|discriminate].
  intros [= <- <-]. done.
Qed.

(** X1: the only exception a load raises is [ImportError] (never
    [NameError] or [TypeError]), and a load that raises leaves the process
    as it found it. *)
Lemma load_error_inv (g : gmap string value) (p p' : process) (e : exn) :
  load g p = (p', inl e) → e = ImportError ∧ p' = p.
Proof.
  rewrite load_run. destruct (imports_available p); [discriminate|].
  intros [= <- <-]. done.
Qed.

(** ** The namespace after a load *)

Section Namespace.
Variable g : gmap string value.
Variable p : process.
Hypothesis Himports : imports_available p = true.

(** C3: immediately after the module is loaded, [project] is "Totem",
    [version] is "1.4", [release] is "1.4.0" and [highlight_language] is
    "php". *)
Theorem load_project_metadata :
  ∃ p' ns, load g p = (p', inr ns)
    ∧ ns !! "project" = Some (VStr "Totem")
    ∧ ns !! "version" = Some (VStr "1.4")
    ∧ ns !! "release" = Some (VStr "1.4.0")
    ∧ ns !! "highlight_language" = Some (VStr "php").
Proof.
  eexists _, _. split; [exact (load_ok g p Himports)|].
  repeat split; lookup_globals.
Qed.

(** C6: after load, [source_suffix] is the literal string ".rst". *)
Theorem load_source_suffix :
  ∃ p' ns, load g p = (p', inr ns)
    ∧ ns !! "source_suffix" = Some (VStr ".rst").
Proof.
  eexists _, _. split; [exact (load_ok g p Himports)|]. lookup_globals.
Qed.

(** C7: after load, [templates_path] is a sequence with exactly one
    entry, the string ".templates". *)
Theorem load_templates_path :
  ∃ p' ns, load g p = (p', inr ns)
    ∧ ns !! "templates_path" = Some (VList [VStr ".templates"]).
Proof.
  eexists _, _. split; [exact (load_ok g p Himports)|]. lookup_globals.
Qed.

(** C8: after load, [exclude_patterns] is a sequence with exactly one
    entry, the string ".build". *)
Theorem load_exclude_patterns :
  ∃ p' ns, load g p = (p', inr ns)
    ∧ ns !! "exclude_patterns" = Some (VList [VStr ".build"]).
Proof.
  eexists _, _. split; [exact (load_ok g p Himports)|]. lookup_globals.
Qed.

(** C9: after load, [extensions] is the empty sequence: no generator
    plugin is requested. *)
Theorem load_extensions :
  ∃ p' ns, load g p = (p', inr ns)
    ∧ ns !! "extensions" = Some (VList []).
Proof.
  eexists _, _. split; [exact (load_ok g p Himports)|]. lookup_globals.
Qed.

(** C4: every entry of [latex_documents] is a 5-tuple, every entry of
    [texinfo_documents] is a 7-tuple, and the first element of every
    entry of both is [master_doc], the string "index".  Both sequences
    have an entry, so the statement is not about empty lists. *)
Theorem load_output_descriptors :
  ∃ p' ns doc ls ts, load g p = (p', inr ns)
    ∧ ns !! "master_doc" = Some doc ∧ doc = VStr "index"
    ∧ ns !! "latex_documents" = Some (VList ls)
    ∧ ns !! "texinfo_documents" = Some (VList ts)
    ∧ Forall (is_descriptor 5 doc) ls
    ∧ Forall (is_descriptor 7 doc) ts
    ∧ length ls = 1 ∧ length ts = 1.
Proof.
  eexists _, _, _, _, _. split; [exact (load_ok g p Himports)|].
  split; [lookup_globals|]. split; [reflexivity|].
  split; [lookup_globals|]. split; [lookup_globals|].
  repeat split; apply Forall_singleton; eexists; repeat split.
Qed.
End Namespace.

(** ** The lexer registry after a load *)

Section Registry.
Variable g : gmap string value.
Variable p : process.
Hypothesis Himports : imports_available p = true.

(** C1: one load stores, under the key "php" of the process-wide lexer
    registry, a [PhpLexer] constructed with [startinline=True]; every
    other key keeps what it held; and when "php" was not registered
    before, it is the one new key: the key set grows by exactly "php" and
    the registry by exactly one entry. *)
Theorem load_registers_php :
  ∃ p' ns, load g p = (p', inr ns)
    ∧ lexers p' !! "php" =
        Some (VInstance (next_id p) "pygments.lexers.web" "PhpLexer"
                        [("startinline", VBool true)])
    ∧ (∀ k : string, k ≠ "php" → lexers p' !! k = lexers p !! k)
    ∧ (lexers p !! "php" = None →
         dom (lexers p') = {["php"]} ∪ dom (lexers p)
         ∧ size (lexers p') = S (size (lexers p))).
Proof.
  eexists _, _. split; [exact (load_ok g p Himports)|].
  unfold registered; cbn [lexers].
  split; [apply lookup_insert_eq|].
  split; [intros k Hk; by apply lookup_insert_ne|].
  intros Hfresh. split; [apply dom_insert_L|].
  by apply map_size_insert_None.
Qed.

(** C10: the tag the script registers its lexer under is the configured
    [highlight_language], the string "php": after a load, looking the
    default language up in the registry gives the lexer this load
    stored. *)
Theorem load_default_language_registered :
  ∃ p' ns tag, load g p = (p', inr ns)
    ∧ ns !! "highlight_language" = Some (VStr tag)
    ∧ tag = "php"
    ∧ lexers p' !! tag = Some (php_lexer (next_id p)).
Proof.
  eexists _, _, _. split; [exact (load_ok g p Himports)|].
  split; [lookup_globals|]. split; [reflexivity|].
  unfold registered; cbn [lexers]. apply lookup_insert_eq.
Qed.
End Registry.

(** ** Loading twice *)

#[global] Instance value_equiv_equivalence : Equivalence value_equiv.
Proof.
  unfold value_equiv. split.
  - intros v. reflexivity.
  - intros v w H. symmetry. exact H.
  - intros u v w Huv Hvw. etransitivity; eassumption.
Qed.

#[global] Instance registry_equiv_equivalence : Equivalence registry_equiv.
Proof.
  unfold registry_equiv. split.
  - intros r. reflexivity.
  - intros r1 r2 H. symmetry. exact H.
  - intros r1 r2 r3 H12 H23. etransitivity; eassumption.
Qed.

Lemma php_lexer_equiv (i j : nat) : value_equiv (php_lexer i) (php_lexer j).
Proof. reflexivity. Qed.

(** A registry differs from an equivalent one at most in the identities of
    the objects it holds: key by key, both are unset or hold equivalent
    values. *)
Lemma registry_equiv_lookup (r1 r2 : gmap string value) (k : string) :
  registry_equiv r1 r2 → option_Forall2 value_equiv (r1 !! k) (r2 !! k).
Proof.
  unfold registry_equiv, value_equiv. intros H.
  assert (Hk : (erase_id <$> r1) !! k = (erase_id <$> r2) !! k) by by rewrite H.
  rewrite !lookup_fmap in Hk.
  destruct (r1 !! k), (r2 !! k); simplify_eq/=; by constructor.
Qed.

Lemma imports_available_registered (p : process) :
  imports_available (registered p) = imports_available p.
Proof. reflexivity. Qed.

(** The second of two stores under "php" changes the registry: the two
    lexers have different identities. *)
Lemma registered_twice_lexers_ne (p : process) :
  lexers (registered (registered p)) ≠ lexers (registered p).
Proof.
  unfold registered; cbn [lexers next_id]. intros Heq.
  assert (H : <["php" := php_lexer (S (next_id p))]>
                (<["php" := php_lexer (next_id p)]> (lexers p)) !! "php"
              = <["php" := php_lexer (next_id p)]> (lexers p) !! "php")
    by by rewrite Heq.
  rewrite !lookup_insert_eq in H.
  injection H as H. lia.
Qed.

Lemma registered_twice_lexers_equiv (p : process) :
  registry_equiv (lexers (registered (registered p))) (lexers (registered p)).
Proof.
  unfold registry_equiv, registered; cbn [lexers next_id].
  rewrite !fmap_insert, insert_insert_eq. reflexivity.
Qed.

(** C2: a second load in a process that has been through one load does not
    raise, and its store under "php" overwrites the first with an
    equivalent value: the registry after the second load is the registry
    after the first with the lexer the second load constructed stored
    under "php"; that lexer is equivalent to the one it replaces, so the
    two registries are equivalent, and it is another object, so they are
    not equal. *)
Theorem load_twice_equivalent (g g' : gmap string value) (p p1 : process) ns1 :
  load g p = (p1, inr ns1) →
  ∃ p2 ns2 old new, load g' p1 = (p2, inr ns2)
    ∧ lexers p1 !! "php" = Some old
    ∧ lexers p2 !! "php" = Some new
    ∧ value_equiv new old
    ∧ registry_equiv (lexers p2) (lexers p1)
    ∧ old = php_lexer (next_id p)
    ∧ new = php_lexer (next_id p1)
    ∧ new ≠ old
    ∧ lexers p2 = <["php" := new]> (lexers p1)
    ∧ lexers p2 ≠ lexers p1.
Proof.
  intros (Himports & -> & ->)%load_ok_inv.
  exists (registered (registered p)), (module_globals g'),
         (php_lexer (next_id p)), (php_lexer (S (next_id p))).
  split.
  { apply load_ok. by rewrite imports_available_registered. }
  split; [apply lookup_insert_eq|]. split; [apply lookup_insert_eq|].
  split; [apply php_lexer_equiv|].
  split; [apply registered_twice_lexers_equiv|].
  split; [reflexivity|]. split; [reflexivity|].
  split; [intros [= H]; lia|].
  split; [reflexivity|]. apply registered_twice_lexers_ne.
Qed.

(** X9: the second load does construct a new object and stores it: the
    registry after the second load is the registry after the first with
    the newly allocated lexer under "php", where the first load's lexer
    was; the two registries are equivalent, not equal. *)
Lemma load_twice_distinct (g g' : gmap string value) (p p1 p2 : process) ns1 ns2 :
  load g p = (p1, inr ns1) → load g' p1 = (p2, inr ns2) →
  lexers p2 ≠ lexers p1
  ∧ registry_equiv (lexers p2) (lexers p1)
  ∧ lexers p1 !! "php" = Some (php_lexer (next_id p))
  ∧ lexers p2 !! "php" = Some (php_lexer (next_id p1))
  ∧ lexers p2 = <["php" := php_lexer (next_id p1)]> (lexers p1)
  ∧ next_id p1 = S (next_id p)
  ∧ next_id p2 = S (next_id p1).
Proof.
  intros (Himports & -> & ->)%load_ok_inv (_ & -> & ->)%load_ok_inv.
  split; [apply registered_twice_lexers_ne|].
  split; [apply registered_twice_lexers_equiv|].
  split; [apply lookup_insert_eq|]. split; [apply lookup_insert_eq|].
  repeat split.
Qed.

(** Run again in the namespace the first load left (a reload), the script
    rebinds every name to what it held. *)
Lemma reload_globals (g : gmap string value) :
  module_globals (module_globals g) = module_globals g.
Proof.
  unfold module_globals at 1.
  repeat (rewrite insert_id by lookup_globals). reflexivity.
Qed.

(** ** Failing imports *)

(** C5: when the class the lexer is constructed from cannot be imported,
    the load ends with [ImportError]; nothing catches it, and the process,
    its lexer registry included, is as it was before the load. *)
Theorem load_import_failure (g : gmap string value) (p : process) :
  has_attr p "pygments.lexers.web" "PhpLexer" = false →
  load g p = (p, inl ImportError).
Proof.
  intros H. apply load_fails. unfold imports_available.
  rewrite H. apply andb_false_r.
Qed.

(** ** When a load succeeds, and what else it does *)

(** X2: a load succeeds exactly when [sys], [os],
    [sphinx.highlighting.lexers] and [pygments.lexers.web.PhpLexer] can all
    be imported. *)
Theorem load_succeeds_iff (g : gmap string value) (p : process) :
  (∃ p' ns, load g p = (p', inr ns)) ↔ imports_available p = true.
Proof.
  split.
  - intros (p' & ns & Hload). by apply load_ok_inv in Hload as (? & _).
  - intros Himports. eexists _, _. by apply load_ok.
Qed.

(** X3: when [sys] or [os] is missing, or [sphinx.highlighting] does not
    export [lexers], the load ends with [ImportError] and the process is
    unchanged, whether or not [PhpLexer] could have been imported: no lexer
    is constructed and nothing is stored. *)
Theorem load_early_import_failure (g : gmap string value) (p : process) :
  has_module p "sys" && has_module p "os"
    && has_attr p "sphinx.highlighting" "lexers" = false →
  load g p = (p, inl ImportError).
Proof.
  intros H. apply load_fails. unfold imports_available. by rewrite H.
Qed.

Lemma module_globals_union (g : gmap string value) :
  module_globals g = module_globals ∅ ∪ g.
Proof.
  unfold module_globals. rewrite <- !insert_union_l.
  by rewrite (left_id_L ∅ (∪)).
Qed.

Lemma module_globals_dom (g : gmap string value) :
  dom (module_globals g) = list_to_set bound_names ∪ dom g.
Proof.
  assert (Hown : dom (module_globals ∅) =@{gset string} list_to_set bound_names)
    by reflexivity.
  by rewrite module_globals_union, dom_union_L, Hown.
Qed.

Lemma module_globals_unbound (g : gmap string value) (k : string) :
  k ∉ bound_names → module_globals g !! k = g !! k.
Proof.
  unfold bound_names. rewrite !not_elem_of_cons.
  intros (?&?&?&?&?&?&?&?&?&?&?&?&?&?&?&?&?&_). unfold module_globals.
  repeat (rewrite lookup_insert_ne by congruence).
  reflexivity.
Qed.

Section Frame.
Variable g : gmap string value.
Variable p : process.
Hypothesis Himports : imports_available p = true.

(** X4: the namespace a load returns is the script's own bindings laid
    over the namespace the loader supplied: what the script binds does not
    depend on the supplied namespace and takes precedence over it. *)
Theorem load_namespace_union :
  ∃ p' ns ns0, load g p = (p', inr ns)
    ∧ load ∅ p = (p', inr ns0)
    ∧ ns = ns0 ∪ g.
Proof.
  eexists _, _, _. split; [exact (load_ok g p Himports)|].
  split; [exact (load_ok ∅ p Himports)|]. apply module_globals_union.
Qed.

(** X5: a load binds exactly the seventeen names of [bound_names].  The
    interpreter's own key [__builtins__] set aside, the names of the
    returned namespace are those and the ones supplied, and a name the
    script does not bind holds what it held (or stays unset).  When the
    supplied namespace already holds [__builtins__], that key is kept as
    it is too, and the names are exactly those and the ones supplied. *)
Theorem load_binds_exactly :
  ∃ p' ns, load g p = (p', inr ns)
    ∧ dom ns ∖ {["__builtins__"]}
        = (list_to_set bound_names ∪ dom g) ∖ {["__builtins__"]}
    ∧ (∀ k : string, k ∈ bound_names → is_Some (ns !! k))
    ∧ (∀ k : string,
         k ∉ bound_names → k ≠ "__builtins__" → ns !! k = g !! k)
    ∧ (is_Some (g !! "__builtins__") →
         dom ns = list_to_set bound_names ∪ dom g
         ∧ ns !! "__builtins__" = g !! "__builtins__").
Proof.
  eexists _, _. split; [exact (load_ok g p Himports)|].
  split; [by rewrite module_globals_dom|]. split.
  { intros k Hk. apply elem_of_dom. rewrite module_globals_dom.
    apply elem_of_union_l, elem_of_list_to_set, Hk. }
  split; [intros k Hk _; by apply module_globals_unbound|].
  intros _. split; [apply module_globals_dom|].
  apply module_globals_unbound. unfold bound_names.
  rewrite !not_elem_of_cons. repeat split; try done. apply not_elem_of_nil.
Qed.

(** X6: run again in the namespace it returned (a reload), the script
    succeeds and returns that same namespace. *)
Theorem reload_same_namespace :
  ∃ p1 ns1 p2, load g p = (p1, inr ns1) ∧ load ns1 p1 = (p2, inr ns1).
Proof.
  eexists _, _, _. split; [exact (load_ok g p Himports)|].
  rewrite load_ok by (by rewrite imports_available_registered).
  by rewrite reload_globals.
Qed.

(** X7: when "php" is already registered, the store replaces the value in
    place: the registry keeps its keys and its size, and "php" now holds
    the lexer this load constructed. *)
Theorem load_overwrites_registered_php (old : value) :
  lexers p !! "php" = Some old →
  ∃ p' ns, load g p = (p', inr ns)
    ∧ dom (lexers p') = dom (lexers p)
    ∧ size (lexers p') = size (lexers p)
    ∧ lexers p' !! "php" = Some (php_lexer (next_id p)).
Proof.
  intros Hold. eexists _, _. split; [exact (load_ok g p Himports)|].
  unfold registered; cbn [lexers].
  split; [apply dom_insert_lookup_L; by eexists|].
  split; [by eapply map_size_insert_Some|]. apply lookup_insert_eq.
Qed.


(** X11: the output descriptors agree with the project metadata: with
    [proj] the project name and [auth] the author, [copyright] is
    "2013, " followed by [auth]; the LaTeX target is [proj].tex and the
    Texinfo target and menu entry are [proj]; both titles are [proj]
    followed by " Documentation"; and both name [auth] as author. *)
Theorem load_descriptors_match_metadata :
  ∃ p' ns proj auth, load g p = (p', inr ns)
    ∧ ns !! "project" = Some (VStr proj)
    ∧ ns !! "copyright" = Some (VStr (String.append "2013, " auth))
    ∧ ns !! "latex_documents" =
        Some (VList [VTuple [VStr "index"; VStr (String.append proj ".tex");
                             VStr (String.append proj " Documentation");
                             VStr auth; VStr "manual"]])
    ∧ ns !! "texinfo_documents" =
        Some (VList [VTuple [VStr "index"; VStr proj;
                             VStr (String.append proj " Documentation");
                             VStr auth; VStr proj;
                             VStr "Changeset Calculator.";
                             VStr "Miscellaneous"]]).
Proof.
  exists (registered p), (module_globals g), "Totem", author.
  split; [exact (load_ok g p Himports)|].
  repeat split; lookup_globals.
Qed.
End Frame.

(** ** Any number of loads *)

Lemma load_n_S (n : nat) (g : gmap string value) (p : process) :
  load_n (S n) g p =
    match load_n n g p with
    | (p', inr _) => load g p'
    | (p', inl e) => (p', inl e)
    end.
Proof. reflexivity. Qed.

Lemma load_n_run (n : nat) (g : gmap string value) (p : process) :
  imports_available p = true →
  load_n (S n) g p =
    (Process (importable p)
             (<["php" := php_lexer (next_id p + n)]> (lexers p))
             (next_id p + S n),
     inr (module_globals g)).
Proof.
  intros Himports. induction n as [|n IH].
  - rewrite load_n_S. cbn [load_n]. rewrite load_ok by done.
    unfold registered. by rewrite Nat.add_0_r, Nat.add_1_r.
  - rewrite load_n_S, IH. rewrite load_ok by exact Himports.
    unfold registered; cbn [importable lexers next_id].
    by rewrite insert_insert_eq, !Nat.add_succ_r.
Qed.

(** X8: however many times the script is loaded in a row, the registry
    holds one "php" entry, the lexer of the last load: after [n + 1] loads
    the registry is the original one with the last-constructed lexer under
    "php", [n + 1] objects have been allocated, and registry and namespace
    are those of a single load up to the identity of that lexer. *)
Theorem load_n_registry (n : nat) (g : gmap string value) (p : process) :
  imports_available p = true →
  ∃ p' ns p1, load_n (S n) g p = (p', inr ns)
    ∧ lexers p' = <["php" := php_lexer (next_id p + n)]> (lexers p)
    ∧ next_id p' = next_id p + S n
    ∧ importable p' = importable p
    ∧ load g p = (p1, inr ns)
    ∧ registry_equiv (lexers p') (lexers p1).
Proof.
  intros Himports. eexists _, _, _.
  split; [exact (load_n_run n g p Himports)|]. cbn [lexers next_id importable].
  do 3 (split; [reflexivity|]). split; [exact (load_ok g p Himports)|].
  unfold registry_equiv, registered; cbn [lexers].
  by rewrite !fmap_insert.
Qed.

(** ** The script on a concrete process *)

Example load_sphinx_process_registry :
  lexers (load ∅ sphinx_process).1 =
    {[ "php" := php_lexer 1;
       "python" := VInstance 0 "pygments.lexers.agile" "PythonLexer" [] ]}.
Proof. apply map_eq. intros k. rewrite load_ok by reflexivity. reflexivity. Qed.

Example load_no_pygments_process :
  load ∅ no_pygments_process = (no_pygments_process, inl ImportError).
Proof. reflexivity. Qed.

(** A name that was never bound, a call of something that is not the
    class, a store into something that is not the dictionary. *)
Example name_unbound :
  (name "PhpLexer" (State ∅ sphinx_process)).2 = inl NameError.
Proof. reflexivity. Qed.

Example call_not_callable :
  (call (VStr "php") [] (State ∅ sphinx_process)).2 = inl TypeError.
Proof. reflexivity. Qed.

Example setitem_not_subscriptable :
  (setitem (VAttr "pygments.lexers.web" "PhpLexer") "php" (VBool true)
     (State ∅ sphinx_process)).2 = inl TypeError.
Proof. reflexivity. Qed.

(** ** The theorems at the sample processes *)

Lemma load_registers_php_witness :
  imports_available sphinx_process = true
  ∧ lexers sphinx_process !! "php" = None
  ∧ ∃ p' ns, load ∅ sphinx_process = (p', inr ns)
      ∧ lexers p' !! "php" =
          Some (VInstance 1 "pygments.lexers.web" "PhpLexer"
                          [("startinline", VBool true)])
      ∧ (∀ k : string, k ≠ "php" → lexers p' !! k = lexers sphinx_process !! k)
      ∧ (lexers sphinx_process !! "php" = None →
           dom (lexers p') = {["php"]} ∪ dom (lexers sphinx_process)
           ∧ size (lexers p') = S (size (lexers sphinx_process))).
Proof.
  split; [vm_compute; reflexivity|]. split; [vm_compute; reflexivity|].
  apply (load_registers_php ∅ sphinx_process). vm_compute; reflexivity.
Defined.

Lemma load_twice_equivalent_witness :
  load ∅ sphinx_process = (registered sphinx_process, inr (module_globals ∅))
  ∧ ∃ p2 ns2 old new,
      load ∅ (registered sphinx_process) = (p2, inr ns2)
      ∧ lexers (registered sphinx_process) !! "php" = Some old
      ∧ lexers p2 !! "php" = Some new
      ∧ value_equiv new old
      ∧ registry_equiv (lexers p2) (lexers (registered sphinx_process))
      ∧ old = php_lexer (next_id sphinx_process)
      ∧ new = php_lexer (next_id (registered sphinx_process))
      ∧ new ≠ old
      ∧ lexers p2 = <["php" := new]> (lexers (registered sphinx_process))
      ∧ lexers p2 ≠ lexers (registered sphinx_process).
Proof.
  split; [reflexivity|].
  apply (load_twice_equivalent ∅ ∅ sphinx_process
           (registered sphinx_process) (module_globals ∅)).
  reflexivity.
Defined.

Lemma load_project_metadata_witness :
  imports_available sphinx_process = true
  ∧ ∃ p' ns, load ∅ sphinx_process = (p', inr ns)
      ∧ ns !! "project" = Some (VStr "Totem")
      ∧ ns !! "version" = Some (VStr "1.4")
      ∧ ns !! "release" = Some (VStr "1.4.0")
      ∧ ns !! "highlight_language" = Some (VStr "php").
Proof.
  split; [vm_compute; reflexivity|].
  apply (load_project_metadata ∅ sphinx_process). vm_compute; reflexivity.
Defined.

Lemma load_output_descriptors_witness :
  imports_available sphinx_process = true
  ∧ ∃ p' ns doc ls ts, load ∅ sphinx_process = (p', inr ns)
      ∧ ns !! "master_doc" = Some doc ∧ doc = VStr "index"
      ∧ ns !! "latex_documents" = Some (VList ls)
      ∧ ns !! "texinfo_documents" = Some (VList ts)
      ∧ Forall (is_descriptor 5 doc) ls
      ∧ Forall (is_descriptor 7 doc) ts
      ∧ length ls = 1 ∧ length ts = 1.
Proof.
  split; [vm_compute; reflexivity|].
  apply (load_output_descriptors ∅ sphinx_process). vm_compute; reflexivity.
Defined.

Lemma load_import_failure_witness :
  has_attr no_pygments_process "pygments.lexers.web" "PhpLexer" = false
  ∧ load ∅ no_pygments_process = (no_pygments_process, inl ImportError).
Proof.
  split; [vm_compute; reflexivity|].
  apply (load_import_failure ∅ no_pygments_process). vm_compute; reflexivity.
Defined.

Lemma load_source_suffix_witness :
  imports_available sphinx_process = true
  ∧ ∃ p' ns, load ∅ sphinx_process = (p', inr ns)
      ∧ ns !! "source_suffix" = Some (VStr ".rst").
Proof.
  split; [vm_compute; reflexivity|].
  apply (load_source_suffix ∅ sphinx_process). vm_compute; reflexivity.
Defined.

Lemma load_templates_path_witness :
  imports_available sphinx_process = true
  ∧ ∃ p' ns, load ∅ sphinx_process = (p', inr ns)
      ∧ ns !! "templates_path" = Some (VList [VStr ".templates"]).
Proof.
  split; [vm_compute; reflexivity|].
  apply (load_templates_path ∅ sphinx_process). vm_compute; reflexivity.
Defined.

Lemma load_exclude_patterns_witness :
  imports_available sphinx_process = true
  ∧ ∃ p' ns, load ∅ sphinx_process = (p', inr ns)
      ∧ ns !! "exclude_patterns" = Some (VList [VStr ".build"]).
Proof.
  split; [vm_compute; reflexivity|].
  apply (load_exclude_patterns ∅ sphinx_process). vm_compute; reflexivity.
Defined.

Lemma load_extensions_witness :
  imports_available sphinx_process = true
  ∧ ∃ p' ns, load ∅ sphinx_process = (p', inr ns)
      ∧ ns !! "extensions" = Some (VList []).
Proof.
  split; [vm_compute; reflexivity|].
  apply (load_extensions ∅ sphinx_process). vm_compute; reflexivity.
Defined.

Lemma load_default_language_registered_witness :
  imports_available sphinx_process = true
  ∧ ∃ p' ns tag, load ∅ sphinx_process = (p', inr ns)
      ∧ ns !! "highlight_language" = Some (VStr tag)
      ∧ tag = "php"
      ∧ lexers p' !! tag = Some (php_lexer 1).
Proof.
  split; [vm_compute; reflexivity|].
  apply (load_default_language_registered ∅ sphinx_process).
  vm_compute; reflexivity.
Defined.

Lemma load_error_inv_witness :
  load ∅ no_pygments_process = (no_pygments_process, inl ImportError)
  ∧ ImportError = ImportError ∧ no_pygments_process = no_pygments_process.
Proof.
  split; [reflexivity|].
  apply (load_error_inv ∅ no_pygments_process no_pygments_process ImportError).
  reflexivity.
Defined.

Lemma load_early_import_failure_witness :
  has_module no_sphinx_process "sys" && has_module no_sphinx_process "os"
    && has_attr no_sphinx_process "sphinx.highlighting" "lexers" = false
  ∧ load ∅ no_sphinx_process = (no_sphinx_process, inl ImportError).
Proof.
  split; [vm_compute; reflexivity|].
  apply (load_early_import_failure ∅ no_sphinx_process). vm_compute; reflexivity.
Defined.

Lemma load_namespace_union_witness :
  imports_available sphinx_process = true
  ∧ ∃ p' ns ns0, load {[ "tags" := VList [] ]} sphinx_process = (p', inr ns)
      ∧ load ∅ sphinx_process = (p', inr ns0)
      ∧ ns = ns0 ∪ {[ "tags" := VList [] ]}.
Proof.
  split; [vm_compute; reflexivity|].
  apply (load_namespace_union {[ "tags" := VList [] ]} sphinx_process).
  vm_compute; reflexivity.
Defined.

Lemma load_binds_exactly_witness :
  imports_available sphinx_process = true
  ∧ ∃ p' ns, load loader_namespace sphinx_process = (p', inr ns)
      ∧ dom ns ∖ {["__builtins__"]}
          = (list_to_set bound_names ∪ dom loader_namespace)
            ∖ {["__builtins__"]}
      ∧ (∀ k : string, k ∈ bound_names → is_Some (ns !! k))
      ∧ (∀ k : string,
           k ∉ bound_names → k ≠ "__builtins__" →
           ns !! k = loader_namespace !! k)
      ∧ (is_Some (loader_namespace !! "__builtins__") →
           dom ns = list_to_set bound_names ∪ dom loader_namespace
           ∧ ns !! "__builtins__" = loader_namespace !! "__builtins__").
Proof.
  split; [vm_compute; reflexivity|].
  apply (load_binds_exactly loader_namespace sphinx_process).
  vm_compute; reflexivity.
Defined.

Lemma reload_same_namespace_witness :
  imports_available sphinx_process = true
  ∧ ∃ p1 ns1 p2, load ∅ sphinx_process = (p1, inr ns1)
      ∧ load ns1 p1 = (p2, inr ns1).
Proof.
  split; [vm_compute; reflexivity|].
  apply (reload_same_namespace ∅ sphinx_process). vm_compute; reflexivity.
Defined.

Lemma load_overwrites_registered_php_witness :
  imports_available (registered sphinx_process) = true
  ∧ lexers (registered sphinx_process) !! "php" = Some (php_lexer 1)
  ∧ ∃ p' ns, load ∅ (registered sphinx_process) = (p', inr ns)
      ∧ dom (lexers p') = dom (lexers (registered sphinx_process))
      ∧ size (lexers p') = size (lexers (registered sphinx_process))
      ∧ lexers p' !! "php" = Some (php_lexer 2).
Proof.
  split; [vm_compute; reflexivity|]. split; [vm_compute; reflexivity|].
  apply (load_overwrites_registered_php ∅ (registered sphinx_process)
           ltac:(vm_compute; reflexivity) (php_lexer 1)).
  vm_compute; reflexivity.
Defined.

Lemma load_n_registry_witness :
  imports_available sphinx_process = true
  ∧ ∃ p' ns p1, load_n 3 ∅ sphinx_process = (p', inr ns)
      ∧ lexers p' = <["php" := php_lexer 3]> (lexers sphinx_process)
      ∧ next_id p' = 4
      ∧ importable p' = importable sphinx_process
      ∧ load ∅ sphinx_process = (p1, inr ns)
      ∧ registry_equiv (lexers p') (lexers p1).
Proof.
  split; [vm_compute; reflexivity|].
  apply (load_n_registry 2 ∅ sphinx_process). vm_compute; reflexivity.
Defined.

Lemma load_twice_distinct_witness :
  load ∅ sphinx_process = (registered sphinx_process, inr (module_globals ∅))
  ∧ load ∅ (registered sphinx_process) =
      (registered (registered sphinx_process), inr (module_globals ∅))
  ∧ lexers (registered (registered sphinx_process))
      ≠ lexers (registered sphinx_process)
  ∧ registry_equiv (lexers (registered (registered sphinx_process)))
                   (lexers (registered sphinx_process))
  ∧ lexers (registered sphinx_process) !! "php" = Some (php_lexer 1)
  ∧ lexers (registered (registered sphinx_process)) !! "php"
      = Some (php_lexer 2)
  ∧ lexers (registered (registered sphinx_process))
      = <["php" := php_lexer 2]> (lexers (registered sphinx_process))
  ∧ next_id (registered sphinx_process) = 2
  ∧ next_id (registered (registered sphinx_process)) = 3.
Proof.
  split; [reflexivity|]. split; [reflexivity|].
  apply (load_twice_distinct ∅ ∅ sphinx_process (registered sphinx_process)
           (registered (registered sphinx_process))
           (module_globals ∅) (module_globals ∅)); reflexivity.
Defined.


Lemma load_descriptors_match_metadata_witness :
  imports_available sphinx_process = true
  ∧ ∃ p' ns proj auth, load ∅ sphinx_process = (p', inr ns)
      ∧ ns !! "project" = Some (VStr proj)
      ∧ ns !! "copyright" = Some (VStr (String.append "2013, " auth))
      ∧ ns !! "latex_documents" =
          Some (VList [VTuple [VStr "index"; VStr (String.append proj ".tex");
                               VStr (String.append proj " Documentation");
                               VStr auth; VStr "manual"]])
      ∧ ns !! "texinfo_documents" =
          Some (VList [VTuple [VStr "index"; VStr proj;
                               VStr (String.append proj " Documentation");
                               VStr auth; VStr proj;
                               VStr "Changeset Calculator.";
                               VStr "Miscellaneous"]]).
Proof.
  split; [vm_compute; reflexivity|].
  apply (load_descriptors_match_metadata ∅ sphinx_process).
  vm_compute; reflexivity.
Defined.
